(** * Cortensor validation agent: consensus scoring and evidence bundle

    A shallow embedding of [src/agent/agent.py] (class
    [CortensorValidationAgent]) and the properties of its scoring pipeline.

    Numbers.  The agent computes with numpy [float64] arrays.  A float is
    modelled as an exact rational, without rounding, extended with the IEEE
    special values that the code reaches through division by zero
    (infinities and NaN).  Python [int]s are [Z]. *)

From Stdlib Require Import String.
From Stdlib Require Import ZArith QArith Qround Qabs Qcanon List Bool Lia Lqa.
From Stdlib Require Import Setoid Morphisms.
Import ListNotations.

Set Warnings "-register-all".

Local Open Scope Z_scope.

(** ** float64: exact rationals with the IEEE special values *)

Module Float64.

Inductive float64 : Type :=
| Fin (q : Q)        (* a finite value *)
| Inf (neg : bool)   (* inf, or -inf when [neg] *)
| NaN.

(** The same float: finite values are compared as rationals. *)
Definition feq (x y : float64) : Prop :=
  match x, y with
  | Fin a, Fin b => a == b
  | Inf s, Inf s' => s = s'
  | NaN, NaN => True
  | _, _ => False
  end.

Definition Qneg (q : Q) : bool := negb (Qle_bool 0 q).
Definition Qzero (q : Q) : bool := Qeq_bool q 0.

Definition fopp (x : float64) : float64 :=
  match x with
  | Fin a => Fin (- a)
  | Inf s => Inf (negb s)
  | NaN => NaN
  end.

Definition fadd (x y : float64) : float64 :=
  match x, y with
  | NaN, _ | _, NaN => NaN
  | Fin a, Fin b => Fin (a + b)
  | Inf s, Fin _ | Fin _, Inf s => Inf s
  | Inf s, Inf s' => if Bool.eqb s s' then Inf s else NaN
  end.

Definition fsub (x y : float64) : float64 := fadd x (fopp y).

Definition fmul (x y : float64) : float64 :=
  match x, y with
  | NaN, _ | _, NaN => NaN
  | Fin a, Fin b => Fin (a * b)
  | Inf s, Fin a | Fin a, Inf s => if Qzero a then NaN else Inf (xorb s (Qneg a))
  | Inf s, Inf s' => Inf (xorb s s')
  end.

(** Division as numpy does it: no exception, [0/0] is NaN and [a/0] an
    infinity.  The model has one zero, read as [+0]. *)
Definition fdiv (x y : float64) : float64 :=
  match x, y with
  | NaN, _ | _, NaN => NaN
  | Fin a, Fin b =>
      if Qzero b then (if Qzero a then NaN else Inf (Qneg a)) else Fin (a / b)
  | Fin _, Inf _ => Fin 0
  | Inf s, Fin b => Inf (xorb s (Qneg b))
  | Inf _, Inf _ => NaN
  end.

Definition fabs (x : float64) : float64 :=
  match x with
  | Fin a => Fin (Qabs a)
  | Inf _ => Inf false
  | NaN => NaN
  end.

(** Square root of a rational: the exact root when the argument is the square
    of a rational, and otherwise the roots of the reduced numerator and
    denominator rounded down (where a float64 rounds the root to nearest). *)
Definition Qsqrt (q : Q) : Q :=
  let r := Qred q in Z.sqrt (Qnum r) # Pos.sqrt (Qden r).

Definition fsqrt (x : float64) : float64 :=
  match x with
  | Fin a => if Qneg a then NaN else Fin (Qsqrt a)
  | Inf false => Inf false
  | Inf true => NaN
  | NaN => NaN
  end.

(** [x < y]; every comparison with NaN is false. *)
Definition fltb (x y : float64) : bool :=
  match x, y with
  | NaN, _ | _, NaN => false
  | Fin a, Fin b => negb (Qle_bool b a)
  | Fin _, Inf s => negb s
  | Inf s, Fin _ => s
  | Inf s, Inf s' => s && negb s'
  end.

Definition fgtb (x y : float64) : bool := fltb y x.

Definition of_Z (z : Z) : float64 := Fin (inject_Z z).
Definition of_nat (n : nat) : float64 := of_Z (Z.of_nat n).

(** Truncation toward zero of a rational. *)
Definition Qtrunc (q : Q) : Z :=
  if Qle_bool 0 q then Qfloor q else Qceiling q.

End Float64.
Export Float64.

(** ** The numpy and Python operations the agent calls *)

Module Numpy.

(** A 2-d [ndarray] of float64, row by row. *)
Definition matrix : Type := list (list float64).

(** [a.sum()] over a flat array. *)
Definition np_sum (a : list float64) : float64 := fold_left fadd a (Fin 0).

(** [a.mean()]: the sum over the number of elements; NaN for an empty array
    ([0/0], numpy warns and returns nan). *)
Definition np_mean (a : list float64) : float64 :=
  fdiv (np_sum a) (of_nat (length a)).

(** [a.std()]: the population standard deviation,
    [sqrt(mean(abs(a - a.mean())**2))]. *)
Definition np_std (a : list float64) : float64 :=
  let m := np_mean a in
  fsqrt (np_mean (map (fun x => let d := fabs (fsub x m) in fmul d d) a)).

(** [m.mean(axis=1)]: the mean of every row. *)
Definition mean_axis1 (m : matrix) : list float64 := map np_mean m.

(** [m.mean()]: the mean over all entries. *)
Definition mean_all (m : matrix) : float64 := np_mean (concat m).

Fixpoint mapM {A B : Type} (f : A -> option B) (l : list A) : option (list B) :=
  match l with
  | [] => Some []
  | a :: l' =>
      match f a, mapM f l' with
      | Some b, Some bs => Some (b :: bs)
      | _, _ => None
      end
  end.

(** [m[np.ix_(rows, cols)]]: the entries at the crossings of the given rows
    and columns; [None] stands for numpy's IndexError. *)
Definition np_ix (m : matrix) (rows cols : list nat) : option matrix :=
  mapM (fun i =>
          match nth_error m i with
          | Some r => mapM (fun j => nth_error r j) cols
          | None => None
          end) rows.

(** [enumerate(l)]. *)
Definition enumerate {A : Type} (l : list A) : list (nat * A) :=
  combine (seq 0 (length l)) l.

(** [int(x)] of a float: truncation toward zero; [None] stands for the
    ValueError (NaN) or OverflowError (infinity) Python raises. *)
Definition py_int (x : float64) : option Z :=
  match x with
  | Fin q => Some (Qtrunc q)
  | _ => None
  end.

(** [a / b] on two Python ints (here: two lengths); [None] stands for
    ZeroDivisionError. *)
Definition py_truediv (a b : nat) : option float64 :=
  match b with
  | O => None
  | S _ => Some (Fin (Z.of_nat a # Pos.of_nat b))
  end.

(** [sum(flags)] over a list of bools: True counts 1. *)
Definition py_sum_bools (flags : list bool) : Z :=
  fold_left (fun acc (b : bool) => acc + (if b then 1 else 0)) flags 0.

End Numpy.
Export Numpy.

(** ** Python values: what a [dict] of the agent holds *)

Module Py.

(** A JSON-like Python value.  A [dict] keeps its keys in insertion order. *)
Inductive json : Type :=
| JNull
| JBool (b : bool)
| JInt (z : Z)
| JFloat (x : float64)
| JStr (s : string)
| JArr (items : list json)
| JObj (fields : list (string * json)).

Inductive exn : Type :=
| ClientError                (* the HTTP request or the decoding of its body failed *)
| KeyError (key : string)
| TypeError.

Inductive result (A : Type) : Type :=
| Ok (a : A)
| Raise (e : exn).
Arguments Ok {A} a.
Arguments Raise {A} e.

Definition bind {A B : Type} (r : result A) (f : A -> result B) : result B :=
  match r with
  | Ok a => f a
  | Raise e => Raise e
  end.

Notation "x <- r ;; k" := (bind r (fun x => k))
  (at level 61, r at next level, right associativity).

Fixpoint assoc (k : string) (fields : list (string * json)) : option json :=
  match fields with
  | [] => None
  | (k', v) :: rest => if String.eqb k k' then Some v else assoc k rest
  end.

(** [d[k]]. *)
Definition getitem (d : json) (k : string) : result json :=
  match d with
  | JObj fields =>
      match assoc k fields with
      | Some v => Ok v
      | None => Raise (KeyError k)
      end
  | _ => Raise TypeError
  end.

(** The keys of a dict, in order. *)
Definition keys (d : json) : list string :=
  match d with
  | JObj fields => map fst fields
  | _ => []
  end.

(** The dict without the entries stored under [k]. *)
Definition without (k : string) (d : json) : json :=
  match d with
  | JObj fields => JObj (filter (fun kv => negb (String.eqb k (fst kv))) fields)
  | _ => d
  end.

End Py.
Export Py.

(** ** The agent *)

Module Agent.

Local Open Scope string_scope.

(** *** Configuration *)

Definition VALIDATION_THRESHOLD : Z := 70.
Definition MIN_WORKERS : nat := 3.
Definition SIMILARITY_THRESHOLD : float64 := Fin (3 # 4).

(** *** Data models *)

Record WorkerResponse : Type := {
  worker : string;
  response : string;
  response_hash : string;
  inference_time_ms : Z;
  similarity_score : float64
}.

(** The dataclass does not check its fields: each one holds whatever value
    the constructor was given. *)
Record TrustScore : Type := {
  score : json;
  consensus_reached : json;
  outlier_count : json;
  avg_similarity : json;
  evidence_cid : json
}.

(** *** Advanced validation *)

(** The z-scores [detect_outliers] computes: for every response the distance
    of its row mean from the mean of the row means, over their standard
    deviation.  The division is not guarded. *)
Definition z_scores (similarity_matrix : matrix) : list float64 :=
  let avg_similarities := mean_axis1 similarity_matrix in
  let mean_similarity := np_mean avg_similarities in
  let std_similarity := np_std avg_similarities in
  map (fun a => fabs (fdiv (fsub a mean_similarity) std_similarity))
      avg_similarities.

(** [detect_outliers(similarity_matrix, threshold)].  The body compares with
    the literal 2.0 and never reads [threshold]. *)
Definition detect_outliers (similarity_matrix : matrix) (threshold : float64)
  : list bool :=
  map (fun z => fgtb z (Fin 2)) (z_scores similarity_matrix).

(** The call that leaves [threshold] to its default. *)
Definition detect_outliers_default (similarity_matrix : matrix) : list bool :=
  detect_outliers similarity_matrix SIMILARITY_THRESHOLD.

(** [[i for i, is_outlier in enumerate(outlier_flags) if not is_outlier]]. *)
Definition valid_indices (outlier_flags : list bool) : list nat :=
  map fst (filter (fun p => negb (snd p)) (enumerate outlier_flags)).

(** Semantic similarity score: [min(60, int(avg_similarity * 60))] over the
    matrix restricted to the valid indices. *)
Definition semantic_score (similarity_matrix : matrix) (valid : list nat)
  : option Z :=
  match np_ix similarity_matrix valid valid with
  | None => None
  | Some valid_similarities =>
      let avg_similarity := mean_all valid_similarities in
      option_map (Z.min 60) (py_int (fmul avg_similarity (Fin 60)))
  end.

(** Consensus ratio score: [int(len(valid_indices) / len(responses) * 20)]. *)
Definition consensus_score (responses : list WorkerResponse) (valid : list nat)
  : option Z :=
  match py_truediv (length valid) (length responses) with
  | None => None
  | Some consensus_ratio => py_int (fmul consensus_ratio (Fin 20))
  end.

(** Response time consistency score. *)
Definition time_score (responses : list WorkerResponse) (valid : list nat)
  : option Z :=
  match mapM (fun i => option_map inference_time_ms (nth_error responses i)) valid with
  | None => None
  | Some times =>
      let valid_times := map of_Z times in
      let time_std := np_std valid_times in
      let time_mean := np_mean valid_times in
      let time_cv :=
        if fgtb time_mean (Fin 0) then fdiv time_std time_mean else Fin 1 in
      option_map (Z.max 0) (py_int (fmul (Fin 10) (fsub (Fin 1) time_cv)))
  end.

Definition reputation_score : Z := 10.

(** [calculate_consensus_score(responses, similarity_matrix, outlier_flags)];
    [None] when the call raises (an index out of range, a division by a zero
    length, [int] of a NaN or of an infinity). *)
Definition calculate_consensus_score
  (responses : list WorkerResponse) (similarity_matrix : matrix)
  (outlier_flags : list bool) : option Z :=
  let valid := valid_indices outlier_flags in
  match valid with
  | [] => Some 0
  | _ :: _ =>
      match semantic_score similarity_matrix valid,
            consensus_score responses valid,
            time_score responses valid with
      | Some similarity, Some consensus, Some time =>
          let total_score := similarity + consensus + time + reputation_score in
          Some (Z.min 100 total_score)
      | _, _, _ => None
      end
  end.

(** *** Evidence bundle *)

(** [generate_evidence_bundle]; [now] is what [datetime.now().isoformat()]
    returns during the call. *)
Definition generate_evidence_bundle
  (now : string) (validation_id : string) (responses : list WorkerResponse)
  (similarity_matrix : matrix) (outlier_flags : list bool) (trust_score : Z)
  : json :=
  JObj [
    ("version", JStr "1.0.0");
    ("validationId", JStr validation_id);
    ("timestamp", JStr now);
    ("trustScore", JInt trust_score);
    ("consensusReached", JBool (VALIDATION_THRESHOLD <=? trust_score)%Z);
    ("proofOfInference", JObj [
      ("workerCount", JInt (Z.of_nat (length responses)));
      ("responses",
       JArr (map (fun r => JObj [
                     ("worker", JStr (worker r));
                     ("responseHash", JStr (response_hash r));
                     ("inferenceTimeMs", JInt (inference_time_ms r));
                     ("similarityScore", JFloat (similarity_score r))])
                 responses))]);
    ("proofOfUsefulWork", JObj [
      ("semanticSimilarityMatrix",
       JArr (map (fun row => JArr (map JFloat row)) similarity_matrix));
      ("outlierFlags", JArr (map JBool outlier_flags));
      ("avgSimilarity", JFloat (mean_all similarity_matrix));
      ("outlierCount", JInt (py_sum_bools outlier_flags))]);
    ("verification", JObj [
      ("method", JStr "cortensor-poi-pouw");
      ("algorithm", JStr "cosine-similarity + outlier-detection");
      ("threshold", JInt VALIDATION_THRESHOLD)])
  ].

(** *** Main validation flow *)

(** What surrounds one call of [validate_output]: the inference service
    behind [API_BASE_URL], the clock, and the number of worker responses that
    have arrived for a validation id when the agent's wait ends.  The agent
    has no call that reads that number. *)
Record World : Type := {
  post_infer : string -> option json;     (* body of POST /infer {"prompt": p} *)
  post_validate : json -> option json;    (* body of POST /validate {"validationId": v} *)
  responses_received : json -> nat;
  clock : string
}.

Definition http (reply : option json) : result json :=
  match reply with
  | Some data => Ok data
  | None => Raise ClientError
  end.

Definition _request_inference (w : World) (prompt : string) : result json :=
  data <- http (post_infer w prompt) ;;
  getitem data "validationId".

Definition _compute_trust_score (w : World) (validation_id : json)
  : result TrustScore :=
  data <- http (post_validate w validation_id) ;;
  s <- getitem data "trustScore" ;;
  c <- getitem data "consensusReached" ;;
  eb1 <- getitem data "evidenceBundle" ;;
  o <- getitem eb1 "outlierCount" ;;
  eb2 <- getitem data "evidenceBundle" ;;
  a <- getitem eb2 "avgSimilarity" ;;
  eb3 <- getitem data "evidenceBundle" ;;
  e <- getitem eb3 "ipfsCid" ;;
  Ok {| score := s; consensus_reached := c; outlier_count := o;
        avg_similarity := a; evidence_cid := e |}.

Definition history_entry (w : World) (prompt : string) (validation_id : json)
  (trust_score : TrustScore) : json :=
  JObj [
    ("timestamp", JStr (clock w));
    ("prompt", JStr prompt);
    ("validation_id", validation_id);
    ("trust_score", score trust_score);
    ("consensus", consensus_reached trust_score)
  ].

(** [validate_output(prompt)]: the value returned or the exception raised,
    and [validation_history] after the call.  The two-second sleep between
    the two requests has no effect on either. *)
Definition validate_output (w : World) (validation_history : list json)
  (prompt : string) : result TrustScore * list json :=
  match _request_inference w prompt with
  | Raise e => (Raise e, validation_history)
  | Ok validation_id =>
      match _compute_trust_score w validation_id with
      | Raise e => (Raise e, validation_history)
      | Ok trust_score =>
          (Ok trust_score,
           (validation_history
              ++ [history_entry w prompt validation_id trust_score])%list)
      end
  end.

End Agent.
Export Agent.

(** ** The specification's side *)

Module Spec.

(** An [n] by [n] matrix. *)
Definition square (n : nat) (m : matrix) : Prop :=
  length m = n /\ Forall (fun row => length row = n) m.

(** The elements of [l] whose flag is false: what is left of an
    index-aligned list once the outliers are taken out. *)
Definition keep {A : Type} (outlier_flags : list bool) (l : list A) : list A :=
  map snd (filter (fun p => negb (fst p)) (combine outlier_flags l)).

(** The similarity matrix restricted to the non-outlier rows and columns,
    diagonal included. *)
Definition restricted (outlier_flags : list bool) (m : matrix) : matrix :=
  map (keep outlier_flags) (keep outlier_flags m).

(** The sum of [f 0], ..., [f (n-1)]. *)
Definition big_sum (n : nat) (f : nat -> float64) : float64 :=
  fold_right fadd (Fin 0) (map f (seq 0 n)).

(** Entry [(i, j)] of a matrix. *)
Definition entry (m : matrix) (i j : nat) : float64 := nth j (nth i m []) NaN.

(** The arithmetic mean of all the [n * n] entries of a matrix. *)
Definition arithmetic_mean_entries (n : nat) (m : matrix) : float64 :=
  fdiv (big_sum n (fun i => big_sum n (fun j => entry m i j))) (of_nat (n * n)).


(** A finite float, and a finite float that is not negative. *)
Definition finite (x : float64) : Prop :=
  match x with
  | Fin _ => True
  | _ => False
  end.

Definition nonneg (x : float64) : Prop :=
  match x with
  | Fin q => (0 <= q)%Q
  | _ => False
  end.

(** The number of flags that are true. *)
Definition count_true (flags : list bool) : nat := length (filter id flags).

(** The world [w] with [n] worker responses received for every validation
    id by the time the agent's wait ends. *)
Definition with_responses (w : World) (n : nat) : World :=
  {| post_infer := post_infer w;
     post_validate := post_validate w;
     responses_received := fun _ => n;
     clock := clock w |}.

End Spec.
Export Spec.

(** ** Concrete rounds *)

Module Rounds.

Local Open Scope string_scope.
Local Open Scope Q_scope.

(** A matrix of finite floats. *)
Definition mk (rows : list (list Q)) : matrix := map (map Fin) rows.

Definition a_response (time_ms : Z) : WorkerResponse :=
  {| worker := "0xworker"; response := "4"; response_hash := "0xhash";
     inference_time_ms := time_ms; similarity_score := Fin 0 |}.




(** Two responses that agree and two that agree with neither each other nor,
    fully, with the first two.  Row means 3/4, 3/4, 1/2, 1/2: every z-score
    is 1. *)
Definition two_camps : matrix :=
  mk [[   1;    1; 1#2; 1#2];
      [   1;    1; 1#2; 1#2];
      [ 1#2;  1#2;   1;   0];
      [ 1#2;  1#2;   0;   1]].


(** The body a validation service sends back. *)
Definition validate_reply (trust : Z) (consensus : bool) : json :=
  JObj [("trustScore", JInt trust);
        ("consensusReached", JBool consensus);
        ("evidenceBundle",
         JObj [("outlierCount", JInt 0);
               ("avgSimilarity", JFloat (Fin 0));
               ("ipfsCid", JStr "bafy")])].

(** A service that answers both requests; no worker has responded. *)
Definition service (trust : Z) (consensus : bool) : World :=
  {| post_infer := fun _ => Some (JObj [("validationId", JStr "val-1")]);
     post_validate := fun _ => Some (validate_reply trust consensus);
     responses_received := fun _ => 0%nat;
     clock := "2025-01-01T00:00:00" |}.

End Rounds.
Export Rounds.

(** ** The agents built on the validation flow *)

Module Drivers.

Local Open Scope string_scope.

(** [_fetch_repo_summary(repo_url)], the mock of the source. *)
Definition _fetch_repo_summary (repo_url : string) : string :=
  "Latest commit in " ++ repo_url ++ ": Added new feature X".

(** [v < n] for a value a reply holds and a Python int.  A bool counts as 0
    or 1, any comparison with NaN is false, and a value of another type
    raises TypeError. *)
Definition py_lt_int (v : json) (n : Z) : result bool :=
  match v with
  | JInt z => Ok (z <? n)%Z
  | JBool b => Ok ((if b then 1 else 0) <? n)%Z
  | JFloat x => Ok (fltb x (of_Z n))
  | _ => Raise TypeError
  end.

(** An alert [_send_alert] was given: its message is
    "Low trust score (<score>) for <repo_url>", behind a warning sign. *)
Record Alert : Type := {
  alert_score : json;
  alert_repo : string
}.

(** What a monitoring loop has produced so far. *)
Record Monitor : Type := {
  history : list json;
  alerts : list Alert
}.

(** One turn of the [while True] loop of [monitor_repository], up to its
    final sleep.  No exception is caught. *)
Definition monitor_round (w : World) (repo_url : string) (st : Monitor)
  : result unit * Monitor :=
  let summary := _fetch_repo_summary repo_url in
  let prompt :=
    "Summarize the latest changes in " ++ repo_url ++ ": " ++ summary in
  match validate_output w (history st) prompt with
  | (Raise e, h) => (Raise e, {| history := h; alerts := alerts st |})
  | (Ok trust_score, h) =>
      match py_lt_int (score trust_score) VALIDATION_THRESHOLD with
      | Raise e => (Raise e, {| history := h; alerts := alerts st |})
      | Ok true =>
          (Ok tt,
           {| history := h;
              alerts := (alerts st
                         ++ [{| alert_score := score trust_score;
                                alert_repo := repo_url |}])%list |})
      | Ok false => (Ok tt, {| history := h; alerts := alerts st |})
      end
  end.

(** The first turns of [monitor_repository(repo_url)], one per world of
    [ws] (the service and clock as they are during that turn).  The loop
    never returns: it goes on to the next turn, or ends with the exception a
    turn raises. *)
Fixpoint monitor_repository (ws : list World) (repo_url : string)
  (st : Monitor) : result unit * Monitor :=
  match ws with
  | [] => (Ok tt, st)
  | w :: ws' =>
      match monitor_round w repo_url st with
      | (Ok _, st') => monitor_repository ws' repo_url st'
      | (Raise e, st') => (Raise e, st')
      end
  end.




(** A response without its text. *)
Definition proof_fields (r : WorkerResponse) : string * string * Z * float64 :=
  (worker r, response_hash r, inference_time_ms r, similarity_score r).

End Drivers.
Export Drivers.

(** * Properties *)

(** ** float64 arithmetic *)

Section FloatFacts.

Local Open Scope Q_scope.

Lemma feq_refl : forall x, feq x x.
Proof. destruct x; simpl; auto. reflexivity. Qed.

Lemma feq_sym : forall x y, feq x y -> feq y x.
Proof. destruct x, y; simpl; auto. intros H; symmetry; exact H. Qed.

Lemma feq_trans : forall x y z, feq x y -> feq y z -> feq x z.
Proof.
  destruct x, y, z; simpl; try tauto; try congruence.
  intros H1 H2. rewrite H1. exact H2.
Qed.

#[global] Instance feq_Equivalence : Equivalence feq.
Proof.
  split.
  - exact feq_refl.
  - exact feq_sym.
  - exact feq_trans.
Qed.

Lemma Qzero_true : forall q, Qzero q = true <-> q == 0.
Proof. intros q. unfold Qzero. apply Qeq_bool_iff. Qed.

Lemma Qzero_false : forall q, Qzero q = false <-> ~ q == 0.
Proof.
  intros q. rewrite <- Qzero_true. destruct (Qzero q); split; congruence.
Qed.

Lemma Qneg_true : forall q, Qneg q = true <-> q < 0.
Proof.
  intros q. unfold Qneg. rewrite negb_true_iff.
  split.
  - intros H. apply Qnot_le_lt. intros Hle.
    apply Qle_bool_iff in Hle. congruence.
  - intros H. destruct (Qle_bool 0 q) eqn:E; [| reflexivity].
    apply Qle_bool_iff in E. exfalso. apply (Qlt_not_le _ _ H E).
Qed.

Lemma Qneg_false : forall q, Qneg q = false <-> 0 <= q.
Proof.
  intros q. unfold Qneg. rewrite negb_false_iff. apply Qle_bool_iff.
Qed.

#[global] Instance Qzero_Proper : Proper (Qeq ==> eq) Qzero.
Proof.
  intros a b E. destruct (Qzero b) eqn:Hb.
  - apply Qzero_true. rewrite E. apply Qzero_true. exact Hb.
  - apply Qzero_false. rewrite E. apply Qzero_false. exact Hb.
Qed.

#[global] Instance Qneg_Proper : Proper (Qeq ==> eq) Qneg.
Proof.
  intros a b E. destruct (Qneg b) eqn:Hb.
  - apply Qneg_true. rewrite E. apply Qneg_true. exact Hb.
  - apply Qneg_false. rewrite E. apply Qneg_false. exact Hb.
Qed.

#[global] Instance fadd_Proper : Proper (feq ==> feq ==> feq) fadd.
Proof.
  intros x x' Hx y y' Hy.
  destruct x, x', y, y'; simpl in *; subst; try tauto.
  - rewrite Hx, Hy. reflexivity.
  - destruct (Bool.eqb neg0 neg2); simpl; auto.
Qed.

Lemma fadd_comm : forall x y, feq (fadd x y) (fadd y x).
Proof.
  destruct x, y; simpl; auto.
  - ring.
  - destruct neg, neg0; simpl; auto.
Qed.

Lemma fadd_assoc : forall x y z, feq (fadd x (fadd y z)) (fadd (fadd x y) z).
Proof.
  destruct x as [a|s|], y as [b|s'|], z as [c|s''|]; simpl; auto;
    try ring;
    repeat match goal with
           | s : bool |- _ => destruct s
           end; simpl; auto.
Qed.

Lemma fadd_0_l : forall x, feq (fadd (Fin 0) x) x.
Proof. destruct x; simpl; auto. ring. Qed.

Lemma fdiv_Proper_l : forall x x' y, feq x x' -> feq (fdiv x y) (fdiv x' y).
Proof.
  intros x x' y Hx.
  destruct x, x', y; simpl in *; subst; try tauto.
  - rewrite (Qzero_Proper _ _ Hx), (Qneg_Proper _ _ Hx).
    destruct (Qzero q1); [destruct (Qzero q0); simpl; auto |].
    simpl. rewrite Hx. reflexivity.
  - reflexivity.
Qed.

(** Truncation toward zero is floor on the non-negative rationals. *)
Lemma Qtrunc_floor : forall q, 0 <= q -> Qtrunc q = Qfloor q.
Proof.
  intros q H. unfold Qtrunc. apply Qle_bool_iff in H. rewrite H. reflexivity.
Qed.

#[global] Instance Qtrunc_Proper : Proper (Qeq ==> eq) Qtrunc.
Proof.
  intros a b E. unfold Qtrunc.
  assert (Hb : Qle_bool 0 a = Qle_bool 0 b).
  { pose proof (Qneg_Proper _ _ E) as H. unfold Qneg in H.
    destruct (Qle_bool 0 a), (Qle_bool 0 b); simpl in H; congruence. }
  rewrite Hb. destruct (Qle_bool 0 b).
  - apply Qfloor_comp. exact E.
  - apply Qceiling_comp. exact E.
Qed.


End FloatFacts.

(** ** Means and deviations of a constant array *)

Section ConstantArrays.

Local Open Scope Q_scope.


Lemma of_nat_S_nonzero : forall n, Qzero (inject_Z (Z.of_nat (S n))) = false.
Proof.
  intros n. apply Qzero_false. intros H.
  assert (L : 0 < inject_Z (Z.of_nat (S n))).
  { rewrite <- (Zlt_Qlt 0). lia. }
  rewrite H in L. apply (Qlt_irrefl 0 L).
Qed.






Lemma map_const_repeat : forall (A B : Type) (f : A -> B) (b : B) (l : list A),
  (forall x, In x l -> f x = b) -> map f l = repeat b (length l).
Proof.
  intros A B f b l H. induction l as [| x l IH]; simpl; [reflexivity |].
  rewrite (H x (or_introl eq_refl)). f_equal.
  apply IH. intros y Hy. apply H. right. exact Hy.
Qed.


End ConstantArrays.

(** ** The trust score and the outlier detector *)

Section Scoring.

Local Open Scope Q_scope.





(** C3.  [detect_outliers] does not read its threshold.  In the round
    [two_camps] every z-score is 1, above the threshold 0.75 the call passes
    (the parameter's default, [SIMILARITY_THRESHOLD]), and no response is
    flagged: the comparison is with the literal 2.0, for every threshold. *)
Theorem detect_outliers_ignores_threshold :
  Forall (fun z => feq z (Fin 1) /\ fgtb z SIMILARITY_THRESHOLD = true)
         (z_scores two_camps)
  /\ detect_outliers two_camps SIMILARITY_THRESHOLD = [false; false; false; false]
  /\ (forall (m : matrix) (t t' : float64),
         detect_outliers m t = detect_outliers m t').
Proof.
  split; [| split].
  - vm_compute. repeat constructor.
  - vm_compute. reflexivity.
  - intros m t t'. reflexivity.
Qed.

End Scoring.

(** ** Restricting the matrix to the non-outlier indices *)

Section Restriction.

Lemma mapM_ext : forall (A B : Type) (f g : A -> option B) (l : list A),
  (forall x, In x l -> f x = g x) -> mapM f l = mapM g l.
Proof.
  intros A B f g l H. induction l as [| x l IH]; simpl; [reflexivity |].
  rewrite (H x (or_introl eq_refl)), IH; [reflexivity |].
  intros y Hy. apply H. right. exact Hy.
Qed.

Lemma mapM_all_some : forall (A B : Type) (f : A -> option B) (h : A -> B)
  (l : list A),
  (forall x, In x l -> f x = Some (h x)) -> mapM f l = Some (map h l).
Proof.
  intros A B f h l H. induction l as [| x l IH]; simpl; [reflexivity |].
  rewrite (H x (or_introl eq_refl)), IH; [reflexivity |].
  intros y Hy. apply H. right. exact Hy.
Qed.

Lemma keep_incl : forall (A : Type) (flags : list bool) (l : list A) (x : A),
  In x (keep flags l) -> In x l.
Proof.
  intros A flags. induction flags as [| b flags IH]; intros l x H.
  - destruct H.
  - destruct l as [| y l]; [destruct H |].
    unfold keep in H. cbn [combine filter fst] in H.
    destruct b; cbn [negb map snd] in H.
    + right. apply IH. exact H.
    + destruct H as [H | H]; [left; exact H | right; apply IH; exact H].
Qed.

(** Gathering the elements of [l] at the valid indices is keeping the
    elements whose flag is false. *)
Lemma gather_valid : forall (A B : Type) (g : A -> option B)
  (flags : list bool) (pre l : list A),
  length l = length flags ->
  mapM (fun i => match nth_error (pre ++ l) i with
                 | Some r => g r
                 | None => None
                 end)
       (map fst (filter (fun p => negb (snd p))
                        (combine (seq (length pre) (length flags)) flags)))
  = mapM g (keep flags l).
Proof.
  intros A B g flags. induction flags as [| b flags IH]; intros pre l Hl.
  - reflexivity.
  - destruct l as [| x l]; [discriminate Hl |].
    injection Hl as Hl.
    assert (Hstep : pre ++ x :: l = (pre ++ [x]) ++ l).
    { rewrite <- app_assoc. reflexivity. }
    assert (Hlen : S (length pre) = length (pre ++ [x])).
    { rewrite length_app. simpl. lia. }
    unfold keep. cbn [length seq combine filter snd fst].
    destruct b; cbn [negb map fst snd mapM].
    + rewrite Hstep, Hlen. apply (IH (pre ++ [x]) l Hl).
    + rewrite nth_error_app2 by lia. rewrite Nat.sub_diag. cbn [nth_error].
      rewrite Hstep, Hlen.
      pose proof (IH (pre ++ [x]) l Hl) as E. unfold keep in E.
      rewrite E. reflexivity.
Qed.

Lemma gather_valid_indices : forall (A B : Type) (g : A -> option B)
  (flags : list bool) (l : list A),
  length l = length flags ->
  mapM (fun i => match nth_error l i with
                 | Some r => g r
                 | None => None
                 end) (valid_indices flags)
  = mapM g (keep flags l).
Proof.
  intros A B g flags l Hl. exact (gather_valid A B g flags [] l Hl).
Qed.

(** [np.ix_] on the valid indices selects the restricted matrix. *)
Lemma np_ix_valid : forall (n : nat) (m : matrix) (flags : list bool),
  square n m -> length flags = n ->
  np_ix m (valid_indices flags) (valid_indices flags)
  = Some (restricted flags m).
Proof.
  intros n m flags [Hn Hrows] Hf. unfold np_ix, restricted.
  rewrite gather_valid_indices by congruence.
  apply mapM_all_some. intros row Hrow.
  apply keep_incl in Hrow. rewrite Forall_forall in Hrows.
  rewrite (mapM_ext _ _ _ (fun j => match nth_error row j with
                                    | Some x => Some x
                                    | None => None
                                    end)).
  - rewrite gather_valid_indices by (rewrite (Hrows row Hrow); congruence).
    rewrite (mapM_all_some _ _ _ (fun x => x)) by reflexivity.
    rewrite map_id. reflexivity.
  - intros j _. destruct (nth_error row j); reflexivity.
Qed.

End Restriction.

Section SemanticAgreement.

Local Open Scope Q_scope.




End SemanticAgreement.

(** ** Sums over a whole matrix *)

Section MatrixSums.

(** The sum from the right, the form [big_sum] has. *)
Lemma fold_left_fadd : forall (a : list float64) (acc : float64),
  feq (fold_left fadd a acc) (fadd acc (fold_right fadd (Fin 0) a)).
Proof.
  induction a as [| x a IH]; intros acc; simpl.
  - rewrite fadd_comm. symmetry. apply fadd_0_l.
  - rewrite IH. symmetry. apply fadd_assoc.
Qed.

Lemma np_sum_fold_right : forall a, feq (np_sum a) (fold_right fadd (Fin 0) a).
Proof.
  intros a. unfold np_sum. rewrite fold_left_fadd. apply fadd_0_l.
Qed.

Lemma fold_right_fadd_app : forall a b,
  feq (fold_right fadd (Fin 0) (a ++ b))
      (fadd (fold_right fadd (Fin 0) a) (fold_right fadd (Fin 0) b)).
Proof.
  induction a as [| x a IH]; intros b; simpl.
  - symmetry. apply fadd_0_l.
  - rewrite IH. apply fadd_assoc.
Qed.

Lemma fold_right_fadd_concat : forall m : matrix,
  feq (fold_right fadd (Fin 0) (concat m))
      (fold_right fadd (Fin 0) (map (fold_right fadd (Fin 0)) m)).
Proof.
  induction m as [| row m IH]; simpl.
  - reflexivity.
  - rewrite fold_right_fadd_app, IH. reflexivity.
Qed.

Lemma map_nth_seq : forall (A : Type) (d : A) (l : list A),
  map (fun j => nth j l d) (seq 0 (length l)) = l.
Proof.
  intros A d l. induction l as [| x l IH]; simpl; [reflexivity |].
  f_equal. rewrite <- seq_shift, map_map. exact IH.
Qed.

Lemma big_sum_rows : forall (n : nat) (m : matrix),
  square n m ->
  big_sum n (fun i => big_sum n (fun j => entry m i j))
  = fold_right fadd (Fin 0) (map (fold_right fadd (Fin 0)) m).
Proof.
  intros n m [Hn Hrows]. unfold big_sum at 1. f_equal.
  transitivity (map (fold_right fadd (Fin 0))
                     (map (fun i => nth i m []) (seq 0 (length m))));
    [| rewrite map_nth_seq; reflexivity].
  rewrite map_map, Hn.
  apply map_ext_in. intros i Hi. apply in_seq in Hi.
  unfold big_sum, entry. f_equal.
  assert (Hrow : length (nth i m []) = n).
  { rewrite Forall_forall in Hrows. apply Hrows. apply nth_In. lia. }
  rewrite <- Hrow. apply map_nth_seq.
Qed.

Lemma length_concat_square : forall (n : nat) (m : matrix),
  Forall (fun row => length row = n) m -> length (concat m) = (length m * n)%nat.
Proof.
  intros n m H. induction H as [| row m Hrow _ IH]; simpl; [reflexivity |].
  rewrite length_app, Hrow, IH. reflexivity.
Qed.

(** numpy's mean over a square matrix is the arithmetic mean of its entries. *)
Lemma mean_all_arithmetic : forall (n : nat) (m : matrix),
  square n m -> feq (mean_all m) (arithmetic_mean_entries n m).
Proof.
  intros n m Hsq. unfold mean_all, np_mean, arithmetic_mean_entries.
  rewrite (big_sum_rows n m Hsq).
  destruct Hsq as [Hn Hrows].
  rewrite (length_concat_square n m Hrows), Hn.
  apply fdiv_Proper_l.
  rewrite np_sum_fold_right. apply fold_right_fadd_concat.
Qed.

Lemma py_sum_bools_acc : forall (flags : list bool) (acc : Z),
  fold_left (fun a (b : bool) => a + (if b then 1 else 0)) flags acc
  = acc + Z.of_nat (count_true flags).
Proof.
  induction flags as [| b flags IH]; intros acc; simpl.
  - unfold count_true. simpl. lia.
  - rewrite IH. unfold count_true. destruct b; cbn [filter id length]; lia.
Qed.

Lemma py_sum_bools_count : forall flags,
  py_sum_bools flags = Z.of_nat (count_true flags).
Proof. intros flags. unfold py_sum_bools. rewrite py_sum_bools_acc. lia. Qed.

End MatrixSums.

(** ** The evidence bundle *)

Section EvidenceBundle.

Local Open Scope string_scope.

(** C5.  Two bundles generated from the same validation id, responses,
    similarity matrix, outlier flags and trust score, at two different
    times, have the same keys in the same order and the same value under
    every key but ["timestamp"], which holds the time of the call. *)
Theorem evidence_bundle_differs_in_timestamp_only :
  forall (now1 now2 validation_id : string) (responses : list WorkerResponse)
         (m : matrix) (flags : list bool) (trust_score : Z),
    let b1 := generate_evidence_bundle now1 validation_id responses m flags
                trust_score in
    let b2 := generate_evidence_bundle now2 validation_id responses m flags
                trust_score in
    without "timestamp" b1 = without "timestamp" b2
    /\ keys b1 = keys b2
    /\ getitem b1 "timestamp" = Ok (JStr now1)
    /\ getitem b2 "timestamp" = Ok (JStr now2).
Proof. intros. repeat split. Qed.

(** C6.  The bundle is a dict of exactly the keys version, validationId,
    timestamp, trustScore, consensusReached, proofOfInference (a dict of
    workerCount and the list responses), proofOfUsefulWork (a dict of
    semanticSimilarityMatrix, outlierFlags, avgSimilarity and outlierCount)
    and verification (a dict of method, algorithm and threshold), in this
    order and nesting. *)
Theorem evidence_bundle_shape :
  forall (now validation_id : string) (responses : list WorkerResponse)
         (m : matrix) (flags : list bool) (trust_score : Z),
  exists version validationId timestamp trustScore consensusReached
         workerCount worker_entries semanticSimilarityMatrix outlierFlags
         avgSimilarity outlierCount method algorithm threshold,
    generate_evidence_bundle now validation_id responses m flags trust_score
    = JObj [
        ("version", version);
        ("validationId", validationId);
        ("timestamp", timestamp);
        ("trustScore", trustScore);
        ("consensusReached", consensusReached);
        ("proofOfInference", JObj [
           ("workerCount", workerCount);
           ("responses", JArr worker_entries)]);
        ("proofOfUsefulWork", JObj [
           ("semanticSimilarityMatrix", semanticSimilarityMatrix);
           ("outlierFlags", outlierFlags);
           ("avgSimilarity", avgSimilarity);
           ("outlierCount", outlierCount)]);
        ("verification", JObj [
           ("method", method);
           ("algorithm", algorithm);
           ("threshold", threshold)])
      ]
    /\ length worker_entries = length responses.
Proof.
  intros. do 14 eexists. split; [reflexivity |]. apply length_map.
Qed.

(** C10.  In the bundle of a square matrix, avgSimilarity is the arithmetic
    mean of all the entries of the matrix, whatever the outlier flags are
    (rows and columns of flagged responses and the diagonal count), and
    outlierCount is the number of flags that are true. *)
Theorem bundle_statistics_cover_whole_matrix :
  forall (n : nat) (now validation_id : string)
         (responses : list WorkerResponse) (m : matrix) (flags : list bool)
         (trust_score : Z),
    square n m ->
    exists (pouw : json) (avg : float64),
      getitem (generate_evidence_bundle now validation_id responses m flags
                 trust_score) "proofOfUsefulWork" = Ok pouw
      /\ getitem pouw "avgSimilarity" = Ok (JFloat avg)
      /\ feq avg (arithmetic_mean_entries n m)
      /\ getitem pouw "outlierCount" = Ok (JInt (Z.of_nat (count_true flags))).
Proof.
  intros n now validation_id responses m flags trust_score Hsq.
  eexists. exists (mean_all m).
  split; [reflexivity |].
  split; [reflexivity |].
  split; [exact (mean_all_arithmetic n m Hsq) |].
  cbn. rewrite py_sum_bools_count. reflexivity.
Qed.

(** C10, an instance: the round [two_camps] with its second response
    flagged. *)
Lemma bundle_statistics_two_camps :
  square 4 two_camps
  /\ exists (pouw : json) (avg : float64),
      getitem (generate_evidence_bundle "2025-01-01T00:00:00" "val-1"
                 (repeat (a_response 120) 4) two_camps
                 [false; true; false; false] 83) "proofOfUsefulWork" = Ok pouw
      /\ getitem pouw "avgSimilarity" = Ok (JFloat avg)
      /\ feq avg (arithmetic_mean_entries 4 two_camps)
      /\ getitem pouw "outlierCount"
         = Ok (JInt (Z.of_nat (count_true [false; true; false; false]))).
Proof.
  assert (S : square 4 two_camps).
  { split; [reflexivity | repeat constructor]. }
  split; [exact S |].
  exact (bundle_statistics_cover_whole_matrix 4 "2025-01-01T00:00:00" "val-1"
           (repeat (a_response 120) 4) two_camps [false; true; false; false]
           83 S).
Defined.

End EvidenceBundle.

(** ** The validation round *)

Section ValidationRound.

Local Open Scope string_scope.

Lemma compute_trust_score_reply : forall (w : World) (vid : json)
  (ts : TrustScore),
  _compute_trust_score w vid = Ok ts ->
  exists data,
    post_validate w vid = Some data
    /\ getitem data "trustScore" = Ok (score ts)
    /\ getitem data "consensusReached" = Ok (consensus_reached ts).
Proof.
  intros w vid ts H. unfold _compute_trust_score in H.
  destruct (post_validate w vid) as [data |]; [| discriminate H].
  exists data. split; [reflexivity |].
  cbn [http bind] in H.
  destruct (getitem data "trustScore") as [s |]; [| discriminate H].
  destruct (getitem data "consensusReached") as [c |]; [| discriminate H].
  cbn [bind] in H.
  destruct (getitem data "evidenceBundle") as [eb |]; [| discriminate H].
  cbn [bind] in H.
  destruct (getitem eb "outlierCount"); [| discriminate H].
  destruct (getitem eb "avgSimilarity"); [| discriminate H].
  destruct (getitem eb "ipfsCid"); [| discriminate H].
  cbn [bind] in H. injection H as <-. split; reflexivity.
Qed.

(** C7 (as amended).  [validate_output] does not count worker responses.
    Whatever number [n] of them has arrived when its wait ends, it asks the
    validation service for the score: when both requests are answered, the
    TrustScore read from the reply is returned and the round is appended to
    the history; when a request fails, its exception is raised and the
    history is left as it was. *)
Theorem validate_output_has_no_quorum_check :
  forall (w : World) (n : nat) (h : list json) (prompt : string),
    (forall vid ts,
        _request_inference w prompt = Ok vid ->
        _compute_trust_score w vid = Ok ts ->
        validate_output (with_responses w n) h prompt
        = (Ok ts, (h ++ [history_entry w prompt vid ts])%list))
    /\ (forall e,
        _request_inference w prompt = Raise e ->
        validate_output (with_responses w n) h prompt = (Raise e, h))
    /\ (forall vid e,
        _request_inference w prompt = Ok vid ->
        _compute_trust_score w vid = Raise e ->
        validate_output (with_responses w n) h prompt = (Raise e, h)).
Proof.
  intros w n h prompt.
  assert (E : validate_output (with_responses w n) h prompt
              = validate_output w h prompt) by reflexivity.
  rewrite E. unfold validate_output.
  repeat split.
  - intros vid ts H1 H2. rewrite H1, H2. reflexivity.
  - intros e H1. rewrite H1. reflexivity.
  - intros vid e H1 H2. rewrite H1, H2. reflexivity.
Qed.

(** C7, an instance: a service that answers, and two worker responses, one
    fewer than [MIN_WORKERS]. *)
Lemma validate_output_below_quorum :
  (responses_received (with_responses (service 85 true) 2) (JStr "val-1")
   < MIN_WORKERS)%nat
  /\ exists ts,
      validate_output (with_responses (service 85 true) 2) [] "What is 2 + 2?"
      = (Ok ts,
         [history_entry (service 85 true) "What is 2 + 2?" (JStr "val-1") ts]).
Proof.
  split; [unfold MIN_WORKERS; simpl; lia |].
  eexists.
  exact (proj1 (validate_output_has_no_quorum_check (service 85 true) 2 []
                  "What is 2 + 2?") (JStr "val-1") _ eq_refl eq_refl).
Defined.

(** C7 as stated fails: with no worker response at all when the wait ends,
    the round does not fail; a TrustScore is returned and the round is
    recorded. *)
Lemma zero_responses_still_scored :
  responses_received (service 0 false) (JStr "val-1") = 0%nat
  /\ _request_inference (service 0 false) "What is 2 + 2?" = Ok (JStr "val-1")
  /\ exists ts,
       validate_output (service 0 false) [] "What is 2 + 2?"
       = (Ok ts,
          [history_entry (service 0 false) "What is 2 + 2?" (JStr "val-1") ts])
       /\ score ts = JInt 0.
Proof. repeat split. eexists. split; reflexivity. Qed.

(** C8 (as amended).  The consensusReached field of the evidence bundle is
    true exactly when the trust score is at least [VALIDATION_THRESHOLD],
    the constant 70.  The TrustScore [validate_output] returns holds the
    score and the consensus flag of the validation service's reply, each
    copied as it came: the agent does not compare them. *)
Theorem consensus_flag_sources :
  (forall (now validation_id : string) (responses : list WorkerResponse)
          (m : matrix) (flags : list bool) (trust_score : Z),
      exists b : bool,
        getitem (generate_evidence_bundle now validation_id responses m flags
                   trust_score) "consensusReached" = Ok (JBool b)
        /\ (b = true <-> (VALIDATION_THRESHOLD <= trust_score)%Z))
  /\ VALIDATION_THRESHOLD = 70%Z
  /\ (forall (w : World) (h h' : list json) (prompt : string)
             (ts : TrustScore),
        validate_output w h prompt = (Ok ts, h') ->
        exists vid data,
          post_validate w vid = Some data
          /\ getitem data "trustScore" = Ok (score ts)
          /\ getitem data "consensusReached" = Ok (consensus_reached ts)).
Proof.
  split; [| split].
  - intros. eexists. split; [reflexivity |]. apply Z.leb_le.
  - reflexivity.
  - intros w h h' prompt ts H. unfold validate_output in H.
    destruct (_request_inference w prompt) as [vid | e]; [| discriminate H].
    destruct (_compute_trust_score w vid) as [ts' | e] eqn:E;
      [| discriminate H].
    injection H as <- _. exists vid.
    exact (compute_trust_score_reply w vid ts' E).
Qed.

(** C8, an instance: a service that reports the score 85 with consensus. *)
Lemma consensus_flag_sources_service :
  exists vid data,
    post_validate (service 85 true) vid = Some data
    /\ getitem data "trustScore" = Ok (JInt 85)
    /\ getitem data "consensusReached" = Ok (JBool true).
Proof.
  exact (proj2 (proj2 consensus_flag_sources) (service 85 true) [] _
           "What is 2 + 2?" _ eq_refl).
Defined.

(** C8 as stated fails for the TrustScore of [validate_output]: a service
    that reports the score 50 with consensus yields a TrustScore whose
    consensus flag is true, below the threshold. *)
Lemma trust_score_flag_is_copied :
  exists ts h',
    validate_output (service 50 true) [] "What is 2 + 2?" = (Ok ts, h')
    /\ score ts = JInt 50
    /\ consensus_reached ts = JBool true
    /\ (50 < VALIDATION_THRESHOLD)%Z.
Proof. do 2 eexists. repeat split. Qed.

End ValidationRound.

(** ** The range of the trust score *)

Section ScoreRange.

Local Open Scope Q_scope.

Lemma fold_fadd_finite : forall a, Forall finite a ->
  forall q, finite (fold_left fadd a (Fin q)).
Proof.
  induction a as [| x a IH]; intros Ha q; simpl; [exact I |].
  inversion Ha as [| ? ? Hx Ha']; subst.
  destruct x as [b | |]; simpl in Hx; try contradiction.
  apply IH. exact Ha'.
Qed.

Lemma fold_fadd_nonneg : forall a, Forall nonneg a ->
  forall q, 0 <= q -> nonneg (fold_left fadd a (Fin q)).
Proof.
  induction a as [| x a IH]; intros Ha q Hq; simpl; [exact Hq |].
  inversion Ha as [| ? ? Hx Ha']; subst.
  destruct x as [b | |]; simpl in Hx; try contradiction.
  apply IH; [exact Ha' |].
  rewrite <- (Qplus_0_r 0). apply Qplus_le_compat; assumption.
Qed.

Lemma np_mean_finite : forall a, a <> [] -> Forall finite a -> finite (np_mean a).
Proof.
  intros a Hne Ha. unfold np_mean, np_sum.
  pose proof (fold_fadd_finite a Ha 0) as H.
  destruct (fold_left fadd a (Fin 0)) as [s | |]; simpl in H; try contradiction.
  destruct a as [| x a]; [congruence |].
  change (length (x :: a)) with (S (length a)).
  unfold of_nat, of_Z. cbn [fdiv]. rewrite of_nat_S_nonzero. exact I.
Qed.

Lemma np_mean_nonneg : forall a, a <> [] -> Forall nonneg a -> nonneg (np_mean a).
Proof.
  intros a Hne Ha. unfold np_mean, np_sum.
  pose proof (fold_fadd_nonneg a Ha 0 (Qle_refl 0)) as H.
  destruct (fold_left fadd a (Fin 0)) as [s | |]; simpl in H; try contradiction.
  destruct a as [| x a]; [congruence |].
  change (length (x :: a)) with (S (length a)).
  unfold of_nat, of_Z. cbn [fdiv]. rewrite of_nat_S_nonzero. simpl.
  apply Qle_shift_div_l.
  - rewrite <- (Zlt_Qlt 0). lia.
  - rewrite Qmult_0_l. exact H.
Qed.


Lemma Qtrunc_nonneg : forall q, 0 <= q -> (0 <= Qtrunc q)%Z.
Proof.
  intros q H. rewrite (Qtrunc_floor q H).
  change 0%Z with (Qfloor 0). apply Qfloor_resp_le. exact H.
Qed.





(** The score never exceeds 100, and it is 0 when every response is flagged
    as an outlier. *)
Lemma consensus_score_capped : forall (responses : list WorkerResponse)
  (m : matrix) (flags : list bool),
  (forall s, calculate_consensus_score responses m flags = Some s ->
             (s <= 100)%Z)
  /\ (valid_indices flags = [] ->
      calculate_consensus_score responses m flags = Some 0%Z).
Proof.
  intros responses m flags. unfold calculate_consensus_score.
  destruct (valid_indices flags) as [| i valid].
  - split; [| reflexivity]. intros s H. injection H as <-. lia.
  - split; [| discriminate].
    intros s H.
    destruct (semantic_score m (i :: valid)); [| discriminate H].
    destruct (consensus_score responses (i :: valid)); [| discriminate H].
    destruct (time_score responses (i :: valid)); [| discriminate H].
    injection H as <-. apply Z.le_min_l.
Qed.


End ScoreRange.

(** ** More on the trust score *)

Section ScoreEdges.

Local Open Scope Q_scope.

Lemma mapM_none : forall (A B : Type) (f : A -> option B) (l : list A) (x : A),
  In x l -> f x = None -> mapM f l = None.
Proof.
  intros A B f l x. induction l as [| y l IH]; intros Hin Hx; [destruct Hin |].
  simpl. destruct Hin as [-> | Hin].
  - rewrite Hx. reflexivity.
  - rewrite (IH Hin Hx). destruct (f y); reflexivity.
Qed.

Lemma all_flagged_no_valid : forall (flags : list bool) (start : nat),
  forallb id flags = true ->
  filter (fun p : nat * bool => negb (snd p))
         (combine (seq start (length flags)) flags) = [].
Proof.
  induction flags as [| b flags IH]; intros start H; [reflexivity |].
  simpl in H. apply andb_true_iff in H. destruct H as [Hb H].
  unfold id in Hb. subst b. simpl. apply IH. exact H.
Qed.

(** X1.  Fail closed: when every flag is set (or there is no flag), the score is
    0 whatever the responses and the matrix are, aligned or not. *)
Theorem all_outliers_score_zero :
  forall (responses : list WorkerResponse) (m : matrix) (flags : list bool),
    forallb id flags = true ->
    calculate_consensus_score responses m flags = Some 0%Z.
Proof.
  intros responses m flags H.
  apply (proj2 (consensus_score_capped responses m flags)).
  unfold valid_indices, enumerate.
  rewrite (all_flagged_no_valid flags 0 H). reflexivity.
Qed.

Lemma all_outliers_score_zero_misaligned :
  forallb id [true; true] = true
  /\ calculate_consensus_score [] (mk [[1]]) [true; true] = Some 0%Z.
Proof.
  split; [reflexivity |].
  exact (all_outliers_score_zero [] (mk [[1]]) [true; true] eq_refl).
Defined.


(** X5.  A non-outlier index past the last row of the matrix, or past the last
    response, makes the call raise. *)
Theorem score_raises_on_missing_index :
  forall (responses : list WorkerResponse) (m : matrix) (flags : list bool)
         (i : nat),
    In i (valid_indices flags) ->
    (length m <= i)%nat \/ (length responses <= i)%nat ->
    calculate_consensus_score responses m flags = None.
Proof.
  intros responses m flags i Hin Hout. unfold calculate_consensus_score.
  destruct (valid_indices flags) as [| j valid] eqn:V; [destruct Hin |].
  destruct Hout as [Hm | Hr].
  - assert (E : semantic_score m (j :: valid) = None).
    { unfold semantic_score, np_ix.
      rewrite (mapM_none _ _ _ (j :: valid) i Hin); [reflexivity |].
      apply nth_error_None in Hm. rewrite Hm. reflexivity. }
    rewrite E. reflexivity.
  - assert (E : time_score responses (j :: valid) = None).
    { unfold time_score.
      rewrite (mapM_none _ _ _ (j :: valid) i Hin); [reflexivity |].
      apply nth_error_None in Hr. rewrite Hr. reflexivity. }
    rewrite E.
    destruct (semantic_score m (j :: valid)); [| reflexivity].
    destruct (consensus_score responses (j :: valid)); reflexivity.
Qed.

Lemma score_raises_on_missing_index_short_matrix :
  In 1%nat (valid_indices [true; false])
  /\ calculate_consensus_score (repeat (a_response 120) 2) (mk [[1]])
       [true; false] = None.
Proof.
  assert (H : In 1%nat (valid_indices [true; false])) by (left; reflexivity).
  split; [exact H |].
  exact (score_raises_on_missing_index (repeat (a_response 120) 2) (mk [[1]])
           [true; false] 1%nat H (or_introl (le_n 1))).
Defined.



End ScoreEdges.

(** ** More on the outlier detector *)

Section OutlierEdges.

Local Open Scope Q_scope.

Lemma fold_fadd_nan_acc : forall a, fold_left fadd a NaN = NaN.
Proof. induction a as [| x a IH]; simpl; [reflexivity | exact IH]. Qed.

Lemma fold_fadd_nan : forall a acc, In NaN a -> fold_left fadd a acc = NaN.
Proof.
  induction a as [| x a IH]; intros acc H; [destruct H |].
  simpl. destruct H as [-> | H].
  - replace (fadd acc NaN) with NaN by (destruct acc; reflexivity).
    apply fold_fadd_nan_acc.
  - apply IH. exact H.
Qed.

Lemma np_mean_nan : forall a, In NaN a -> np_mean a = NaN.
Proof.
  intros a H. unfold np_mean, np_sum. rewrite (fold_fadd_nan a _ H).
  reflexivity.
Qed.

Lemma nan_scores_unflagged : forall n : nat,
  map (fun z => fgtb z (Fin 2)) (repeat NaN n) = repeat false n.
Proof.
  induction n as [| n IH]; [reflexivity |].
  cbn [repeat map]. rewrite IH. reflexivity.
Qed.

(** X7.  One NaN in the similarity matrix switches the detector off: every
    z-score is NaN and no response is flagged. *)
Theorem nan_entry_disables_detection :
  forall (m : matrix) (row : list float64) (threshold : float64),
    In row m -> In NaN row ->
    z_scores m = repeat NaN (length m)
    /\ detect_outliers m threshold = repeat false (length m).
Proof.
  intros m row threshold Hrow Hnan.
  assert (Hz : z_scores m = repeat NaN (length m)).
  { unfold z_scores.
    assert (Havg : In NaN (mean_axis1 m)).
    { unfold mean_axis1. rewrite <- (np_mean_nan row Hnan).
      apply in_map. exact Hrow. }
    rewrite (np_mean_nan _ Havg).
    replace (length m) with (length (mean_axis1 m))
      by (unfold mean_axis1; apply length_map).
    apply map_const_repeat. intros x _. destruct x; reflexivity. }
  split; [exact Hz |].
  unfold detect_outliers. rewrite Hz. apply nan_scores_unflagged.
Qed.

Lemma nan_entry_disables_detection_example :
  In [Fin 0; NaN; Fin 1] [[Fin 1; Fin 1; Fin 0]; [Fin 1; Fin 1; Fin 0];
                          [Fin 0; NaN; Fin 1]]
  /\ In NaN [Fin 0; NaN; Fin 1]
  /\ detect_outliers [[Fin 1; Fin 1; Fin 0]; [Fin 1; Fin 1; Fin 0];
                      [Fin 0; NaN; Fin 1]] SIMILARITY_THRESHOLD
     = [false; false; false].
Proof.
  assert (H1 : In [Fin 0; NaN; Fin 1]
                 [[Fin 1; Fin 1; Fin 0]; [Fin 1; Fin 1; Fin 0];
                  [Fin 0; NaN; Fin 1]]) by (right; right; left; reflexivity).
  assert (H2 : In NaN [Fin 0; NaN; Fin 1]) by (right; left; reflexivity).
  split; [exact H1 |]. split; [exact H2 |].
  exact (proj2 (nan_entry_disables_detection _ _ SIMILARITY_THRESHOLD H1 H2)).
Defined.




End OutlierEdges.

Section FewResponses.

Local Open Scope Q_scope.





End FewResponses.

(** ** What the evidence bundle records *)

Section BundleRecord.

Local Open Scope string_scope.

Lemma map_injective : forall (A B : Type) (f : A -> B),
  (forall x y, f x = f y -> x = y) ->
  forall l l', map f l = map f l' -> l = l'.
Proof.
  intros A B f Hf l. induction l as [| x l IH]; intros [| y l'] H;
    try discriminate H; [reflexivity |].
  simpl in H. injection H as Hx Hl. f_equal; [apply Hf; exact Hx | apply IH; exact Hl].
Qed.

Lemma worker_entries_fields : forall rs rs' : list WorkerResponse,
  map (fun r => JObj [("worker", JStr (worker r));
                      ("responseHash", JStr (response_hash r));
                      ("inferenceTimeMs", JInt (inference_time_ms r));
                      ("similarityScore", JFloat (similarity_score r))]) rs
  = map (fun r => JObj [("worker", JStr (worker r));
                        ("responseHash", JStr (response_hash r));
                        ("inferenceTimeMs", JInt (inference_time_ms r));
                        ("similarityScore", JFloat (similarity_score r))]) rs'
  <-> map proof_fields rs = map proof_fields rs'.
Proof.
  intros rs. induction rs as [| r rs IH]; intros [| r' rs']; cbn [map];
    try (split; intros H; discriminate H); [split; reflexivity |].
  split; intros H.
  - injection H as Hw Hh Ht Hs Hrest. unfold proof_fields.
    rewrite Hw, Hh, Ht, Hs. f_equal. apply IH. exact Hrest.
  - injection H as Hw Hh Ht Hs Hrest. rewrite Hw, Hh, Ht, Hs. f_equal.
    apply IH. exact Hrest.
Qed.

(** X9.  Two evidence bundles are equal exactly when they were generated at the
    same time from the same validation id, trust score, similarity matrix
    and outlier flags, and from responses that agree, one by one, on worker,
    hash, inference time and similarity score.  The text of a response
    never enters the bundle. *)
Theorem evidence_bundles_equal_iff :
  forall (now now' validation_id validation_id' : string)
         (rs rs' : list WorkerResponse) (m m' : matrix)
         (flags flags' : list bool) (s s' : Z),
    generate_evidence_bundle now validation_id rs m flags s
    = generate_evidence_bundle now' validation_id' rs' m' flags' s'
    <-> now = now' /\ validation_id = validation_id'
        /\ map proof_fields rs = map proof_fields rs'
        /\ m = m' /\ flags = flags' /\ s = s'.
Proof.
  intros. unfold generate_evidence_bundle. split.
  - intros H. injection H as Hv Hn Hs _ Hlen Hrs Hm Hf _ _.
    repeat split; try assumption.
    + apply worker_entries_fields. exact Hrs.
    + apply (map_injective _ _ (fun row => JArr (map JFloat row))); [| exact Hm].
      intros x y E. injection E as E.
      apply (map_injective _ _ JFloat); [| exact E].
      intros a b Eab. injection Eab as Eab. exact Eab.
    + apply (map_injective _ _ JBool); [| exact Hf].
      intros a b Eab. injection Eab as Eab. exact Eab.
  - intros [-> [-> [Hrs [-> [-> ->]]]]].
    assert (Hlen : length rs = length rs').
    { apply (f_equal (@length _)) in Hrs. rewrite !length_map in Hrs.
      exact Hrs. }
    apply worker_entries_fields in Hrs. rewrite Hrs, Hlen. reflexivity.
Qed.

(** X10.  For a matrix without entries (no row, or empty rows) the bundle's
    avgSimilarity is NaN. *)
Theorem empty_matrix_avg_is_nan :
  forall (now validation_id : string) (rs : list WorkerResponse) (m : matrix)
         (flags : list bool) (s : Z),
    concat m = [] ->
    exists pouw,
      getitem (generate_evidence_bundle now validation_id rs m flags s)
        "proofOfUsefulWork" = Ok pouw
      /\ getitem pouw "avgSimilarity" = Ok (JFloat NaN).
Proof.
  intros now validation_id rs m flags s H. eexists. split; [reflexivity |].
  cbn. unfold mean_all. rewrite H. reflexivity.
Qed.

Lemma empty_matrix_avg_is_nan_no_response :
  exists pouw,
    getitem (generate_evidence_bundle "2025-01-01T00:00:00" "val-1" [] [] [] 0)
      "proofOfUsefulWork" = Ok pouw
    /\ getitem pouw "avgSimilarity" = Ok (JFloat NaN).
Proof.
  exact (empty_matrix_avg_is_nan "2025-01-01T00:00:00" "val-1" [] [] [] 0
           eq_refl).
Defined.

End BundleRecord.

(** ** Rounds, their history and the agents that drive them *)

Section RoundsAndDrivers.

Local Open Scope string_scope.

(** X11.  [_compute_trust_score] returns a TrustScore exactly when the service's
    reply is a dict that holds trustScore, consensusReached and, in a dict
    under evidenceBundle, outlierCount, avgSimilarity and ipfsCid; the five
    values are copied as they are, of whatever type. *)
Theorem compute_trust_score_succeeds_iff :
  forall (w : World) (vid : json) (ts : TrustScore),
    _compute_trust_score w vid = Ok ts
    <-> exists data eb,
          post_validate w vid = Some data
          /\ getitem data "trustScore" = Ok (score ts)
          /\ getitem data "consensusReached" = Ok (consensus_reached ts)
          /\ getitem data "evidenceBundle" = Ok eb
          /\ getitem eb "outlierCount" = Ok (outlier_count ts)
          /\ getitem eb "avgSimilarity" = Ok (avg_similarity ts)
          /\ getitem eb "ipfsCid" = Ok (evidence_cid ts).
Proof.
  intros w vid ts. unfold _compute_trust_score. split.
  - intros H.
    destruct (post_validate w vid) as [data |]; [| discriminate H].
    cbn [http bind] in H.
    destruct (getitem data "trustScore") as [s |] eqn:Es; [| discriminate H].
    destruct (getitem data "consensusReached") as [c |] eqn:Ec;
      [| discriminate H].
    cbn [bind] in H.
    destruct (getitem data "evidenceBundle") as [eb |] eqn:Eeb;
      [| discriminate H].
    cbn [bind] in H.
    destruct (getitem eb "outlierCount") as [o |] eqn:Eo; [| discriminate H].
    destruct (getitem eb "avgSimilarity") as [a |] eqn:Ea; [| discriminate H].
    destruct (getitem eb "ipfsCid") as [e |] eqn:Ee; [| discriminate H].
    cbn [bind] in H. injection H as <-.
    exists data, eb. repeat split; assumption.
  - intros [data [eb [Hd [Hs [Hc [Heb [Ho [Ha He]]]]]]]].
    rewrite Hd. cbn [http bind]. rewrite Hs, Hc. cbn [bind].
    rewrite Heb. cbn [bind]. rewrite Ho, Ha, He. cbn [bind].
    destruct ts; reflexivity.
Qed.

Lemma validate_output_history_step :
  forall (w : World) (h h' : list json) (prompt : string)
         (r : result TrustScore),
    validate_output w h prompt = (r, h') ->
    match r with
    | Ok ts =>
        exists vid,
          h' = (h ++ [JObj [("timestamp", JStr (clock w));
                            ("prompt", JStr prompt);
                            ("validation_id", vid);
                            ("trust_score", score ts);
                            ("consensus", consensus_reached ts)]])%list
    | Raise _ => h' = h
    end.
Proof.
  intros w h h' prompt r H. unfold validate_output in H.
  destruct (_request_inference w prompt) as [vid | e].
  - destruct (_compute_trust_score w vid) as [ts | e].
    + injection H as <- <-. exists vid. reflexivity.
    + injection H as <- <-. reflexivity.
  - injection H as <- <-. reflexivity.
Qed.

(** X12.  The history is append-only: a round that returns appends exactly one
    entry, which holds the clock's time, the whole prompt, the validation
    id and the score and flag of the returned TrustScore; a round that
    raises leaves the history as it was. *)
Theorem validate_output_appends_one_entry :
  forall (w : World) (h h' : list json) (prompt : string)
         (r : result TrustScore),
    validate_output w h prompt = (r, h') ->
    match r with
    | Ok ts =>
        exists vid,
          h' = (h ++ [JObj [("timestamp", JStr (clock w));
                            ("prompt", JStr prompt);
                            ("validation_id", vid);
                            ("trust_score", score ts);
                            ("consensus", consensus_reached ts)]])%list
    | Raise _ => h' = h
    end.
Proof.
  intros w h h' prompt r H.
  exact (validate_output_history_step w h h' prompt r H).
Qed.

Lemma validate_output_appends_one_entry_service :
  exists vid,
    snd (validate_output (service 85 true) [] "What is 2 + 2?")
    = ([] ++ [JObj [("timestamp", JStr (clock (service 85 true)));
                    ("prompt", JStr "What is 2 + 2?");
                    ("validation_id", vid);
                    ("trust_score", JInt 85);
                    ("consensus", JBool true)]])%list.
Proof.
  exact (validate_output_appends_one_entry (service 85 true) [] _
           "What is 2 + 2?" (Ok _) eq_refl).
Defined.



(** X14.  An integer score below the threshold is what makes the monitor alert,
    and it is what makes the evidence bundle say that consensus was not
    reached: the two tests are complementary. *)
Theorem alert_complements_consensus :
  forall (now validation_id : string) (rs : list WorkerResponse) (m : matrix)
         (flags : list bool) (s : Z),
  exists low : bool,
    py_lt_int (JInt s) VALIDATION_THRESHOLD = Ok low
    /\ getitem (generate_evidence_bundle now validation_id rs m flags s)
         "consensusReached" = Ok (JBool (negb low)).
Proof.
  intros. eexists. split; [reflexivity |].
  cbn. rewrite Z.leb_antisym. reflexivity.
Qed.

End RoundsAndDrivers.

Section Monitoring.

Local Open Scope string_scope.

(** A turn that returns has appended one entry to the history and sent at
    most one alert, for a score that compares below the threshold. *)
Lemma monitor_round_ok : forall (w : World) (repo_url : string)
  (st st' : Monitor) (u : unit),
  monitor_round w repo_url st = (Ok u, st') ->
  length (history st') = S (length (history st))
  /\ exists new,
       alerts st' = (alerts st ++ new)%list
       /\ (length new <= 1)%nat
       /\ Forall (fun a => py_lt_int (alert_score a) VALIDATION_THRESHOLD
                           = Ok true
                           /\ alert_repo a = repo_url) new.
Proof.
  intros w repo_url st st' u H. unfold monitor_round in H.
  destruct (validate_output w (history st) _) as [r h] eqn:E.
  pose proof (validate_output_history_step w _ h _ r E) as A.
  destruct r as [ts | e]; [| discriminate H].
  destruct A as [vid ->].
  assert (L : length (history st ++ [JObj [("timestamp", JStr (clock w));
                ("prompt", JStr ("Summarize the latest changes in "
                                 ++ repo_url ++ ": "
                                 ++ _fetch_repo_summary repo_url));
                ("validation_id", vid);
                ("trust_score", score ts);
                ("consensus", consensus_reached ts)]])%list
              = S (length (history st))).
  { rewrite length_app. simpl. lia. }
  destruct (py_lt_int (score ts) VALIDATION_THRESHOLD) as [[|] | e] eqn:P;
    [| | discriminate H]; injection H as _ <-; cbn [history alerts].
  - split; [exact L |]. eexists. split; [reflexivity |].
    split; [simpl; lia |]. constructor; [| constructor].
    split; [exact P | reflexivity].
  - split; [exact L |]. exists []. split; [symmetry; apply app_nil_r |].
    split; [simpl; lia | constructor].
Qed.

(** X15.  While the monitor runs, every turn appends one entry to the history,
    and the alerts it sends are for scores that compare below the threshold:
    at most one per turn, none for any other score. *)
Theorem monitor_rounds_invariant :
  forall (ws : list World) (repo_url : string) (st st' : Monitor) (u : unit),
    monitor_repository ws repo_url st = (Ok u, st') ->
    length (history st') = (length (history st) + length ws)%nat
    /\ exists new,
         alerts st' = (alerts st ++ new)%list
         /\ (length new <= length ws)%nat
         /\ Forall (fun a => py_lt_int (alert_score a) VALIDATION_THRESHOLD
                             = Ok true
                             /\ alert_repo a = repo_url) new.
Proof.
  induction ws as [| w ws IH]; intros repo_url st st' u H.
  - simpl in H. injection H as _ <-. split; [simpl; lia |].
    exists []. split; [symmetry; apply app_nil_r |].
    split; [simpl; lia | constructor].
  - cbn [monitor_repository] in H.
    destruct (monitor_round w repo_url st) as [r st1] eqn:R.
    destruct r as [u1 | e]; [| discriminate H].
    destruct (monitor_round_ok w repo_url st st1 u1 R) as [L1 [n1 [A1 [B1 F1]]]].
    destruct (IH repo_url st1 st' u H) as [L2 [n2 [A2 [B2 F2]]]].
    split; [rewrite L2, L1; simpl; lia |].
    exists (n1 ++ n2)%list. split; [rewrite A2, A1, app_assoc; reflexivity |].
    split; [rewrite length_app; simpl; lia |].
    apply Forall_app. split; assumption.
Qed.

Lemma monitor_rounds_invariant_two_turns :
  exists st',
    monitor_repository [service 85 true; service 50 true]
      "https://example.org/repo" {| history := []; alerts := [] |}
    = (Ok tt, st')
    /\ length (history st') = 2%nat
    /\ alerts st' = [{| alert_score := JInt 50;
                        alert_repo := "https://example.org/repo" |}].
Proof.
  eexists. split; [reflexivity |]. split; [| reflexivity].
  exact (proj1 (monitor_rounds_invariant [service 85 true; service 50 true]
                  "https://example.org/repo"
                  {| history := []; alerts := [] |} _ tt eq_refl)).
Defined.

(** X16.  No exception is caught: the turn that raises is the last one, whatever
    the service would have answered afterwards. *)
Theorem monitor_stops_at_first_failure :
  forall (ws1 ws2 : list World) (w : World) (repo_url : string)
         (st st1 st2 : Monitor) (u : unit) (e : exn),
    monitor_repository ws1 repo_url st = (Ok u, st1) ->
    monitor_round w repo_url st1 = (Raise e, st2) ->
    monitor_repository (ws1 ++ w :: ws2) repo_url st = (Raise e, st2).
Proof.
  induction ws1 as [| a ws1 IH]; intros ws2 w repo_url st st1 st2 u e H1 H2.
  - simpl in H1. injection H1 as _ <-. simpl. rewrite H2. reflexivity.
  - cbn [monitor_repository app] in *.
    destruct (monitor_round a repo_url st) as [r st'].
    destruct r as [u' | e']; [| discriminate H1].
    exact (IH ws2 w repo_url st' st1 st2 u e H1 H2).
Qed.

Lemma monitor_stops_at_first_failure_outage :
  monitor_repository
    ([service 85 true]
     ++ {| post_infer := fun _ => None;
           post_validate := fun _ => None;
           responses_received := fun _ => 0%nat;
           clock := "2025-01-01T00:05:00" |}
     :: [service 50 true])
    "https://example.org/repo" {| history := []; alerts := [] |}
  = (Raise ClientError,
     {| history :=
          [history_entry (service 85 true)
             ("Summarize the latest changes in https://example.org/repo: "
              ++ _fetch_repo_summary "https://example.org/repo")
             (JStr "val-1")
             {| score := JInt 85; consensus_reached := JBool true;
                outlier_count := JInt 0; avg_similarity := JFloat (Fin 0);
                evidence_cid := JStr "bafy" |}];
        alerts := [] |}).
Proof.
  exact (monitor_stops_at_first_failure [service 85 true] [service 50 true]
           {| post_infer := fun _ => None;
              post_validate := fun _ => None;
              responses_received := fun _ => 0%nat;
              clock := "2025-01-01T00:05:00" |}
           "https://example.org/repo" {| history := []; alerts := [] |}
           {| history :=
                [history_entry (service 85 true)
                   ("Summarize the latest changes in https://example.org/repo: "
                    ++ _fetch_repo_summary "https://example.org/repo")
                   (JStr "val-1")
                   {| score := JInt 85; consensus_reached := JBool true;
                      outlier_count := JInt 0;
                      avg_similarity := JFloat (Fin 0);
                      evidence_cid := JStr "bafy" |}];
              alerts := [] |}
           _ tt ClientError eq_refl eq_refl).
Defined.






End Monitoring.

(** ** The components of the trust score *)

Section ScoreComponents.

Local Open Scope Q_scope.

Lemma Qsqrt_nonneg : forall q, 0 <= Qsqrt q.
Proof.
  intros q. unfold Qsqrt, Qle. simpl. rewrite Z.mul_1_r. apply Z.sqrt_nonneg.
Qed.

Lemma np_std_nonneg : forall a, a <> [] -> Forall finite a -> nonneg (np_std a).
Proof.
  intros a Hne Ha. unfold np_std.
  pose proof (np_mean_finite a Hne Ha) as Hm.
  destruct (np_mean a) as [m | |]; simpl in Hm; try contradiction.
  set (sq := map _ a).
  assert (Hsq : Forall nonneg sq).
  { unfold sq. apply Forall_map. apply (Forall_impl _ (P := finite)); [| exact Ha].
    intros x Hx. destruct x as [b | |]; simpl in Hx; try contradiction.
    cbn [fabs fsub fadd fopp fmul nonneg].
    apply Qmult_le_0_compat; apply Qabs_nonneg. }
  assert (Hsqne : sq <> []) by (unfold sq; destruct a; simpl; congruence).
  pose proof (np_mean_nonneg sq Hsqne Hsq) as Hv.
  destruct (np_mean sq) as [v | |]; simpl in Hv; try contradiction.
  simpl. apply Qneg_false in Hv. rewrite Hv. simpl. apply Qsqrt_nonneg.
Qed.

Lemma Qtrunc_le : forall (q : Q) (z : Z),
  (0 <= z)%Z -> q <= inject_Z z -> (Qtrunc q <= z)%Z.
Proof.
  intros q z Hz H. unfold Qtrunc. destruct (Qle_bool 0 q) eqn:E.
  - rewrite <- (Qfloor_Z z). apply Qfloor_resp_le. exact H.
  - assert (L : q <= 0).
    { apply Qlt_le_weak. apply Qneg_true. unfold Qneg. rewrite E. reflexivity. }
    apply Z.le_trans with (Qceiling 0); [| exact Hz].
    apply Qceiling_resp_le. exact L.
Qed.

(** The time component lies between 0 and 10. *)
Lemma time_score_bounds : forall (responses : list WorkerResponse)
  (valid : list nat) (t : Z),
  time_score responses valid = Some t -> (0 <= t <= 10)%Z.
Proof.
  intros responses valid t H. unfold time_score in H.
  destruct (mapM _ valid) as [times |]; [| discriminate H].
  set (vt := map of_Z times) in H.
  assert (Hcv : exists c, (if fgtb (np_mean vt) (Fin 0)
                           then fdiv (np_std vt) (np_mean vt) else Fin 1)
                          = Fin c /\ 0 <= c).
  { destruct times as [| z times].
    - exists 1. split; [reflexivity | discriminate].
    - assert (Hne : vt <> []) by (unfold vt; simpl; congruence).
      assert (Hfin : Forall finite vt).
      { unfold vt. apply Forall_map. apply Forall_forall. intros x _. exact I. }
      pose proof (np_mean_finite vt Hne Hfin) as Hm.
      pose proof (np_std_nonneg vt Hne Hfin) as Hs.
      destruct (np_mean vt) as [mu | |]; simpl in Hm; try contradiction.
      destruct (np_std vt) as [sd | |]; simpl in Hs; try contradiction.
      destruct (fgtb (Fin mu) (Fin 0)) eqn:G.
      + unfold fgtb, fltb in G. apply negb_true_iff in G.
        assert (Hmu : 0 < mu).
        { apply Qnot_le_lt. intros L. apply Qle_bool_iff in L. congruence. }
        assert (Z0 : Qzero mu = false) by (apply Qzero_false; lra).
        cbn [fdiv]. rewrite Z0. eexists. split; [reflexivity |].
        apply Qle_shift_div_l; [exact Hmu | lra].
      + exists 1. split; [reflexivity | discriminate]. }
  destruct Hcv as [c [Ec Hc]]. rewrite Ec in H.
  cbn [fsub fopp fadd fmul py_int option_map] in H. injection H as <-.
  split; [apply Z.le_max_l |].
  apply Z.max_lub; [lia |].
  apply Qtrunc_le; [lia |]. change (inject_Z 10) with 10. lra.
Qed.

Lemma valid_indices_from : forall (flags : list bool) (start : nat),
  let l := map fst (filter (fun p : nat * bool => negb (snd p))
                           (combine (seq start (length flags)) flags)) in
  NoDup l /\ forall i, In i l -> (start <= i)%nat.
Proof.
  induction flags as [| b flags IH]; intros start; cbn zeta.
  - split; [constructor | intros i []].
  - destruct (IH (S start)) as [ND LB]. cbn [length seq combine filter snd].
    destruct b; cbn [negb map fst].
    + split; [exact ND |]. intros i Hi. apply LB in Hi. lia.
    + split.
      * constructor; [| exact ND]. intros Hin. apply LB in Hin. lia.
      * intros i [<- | Hi]; [lia |]. apply LB in Hi. lia.
Qed.

Lemma mapM_some_all : forall (A B : Type) (f : A -> option B) (l : list A)
  (l' : list B) (x : A),
  mapM f l = Some l' -> In x l -> f x <> None.
Proof.
  intros A B f l l' x H Hin E. rewrite (mapM_none A B f l x Hin E) in H.
  discriminate H.
Qed.

(** The consensus component lies between 0 and 20 whenever the times of the
    valid responses can be read. *)
Lemma consensus_score_bounds : forall (responses : list WorkerResponse)
  (flags : list bool) (c t : Z),
  time_score responses (valid_indices flags) = Some t ->
  consensus_score responses (valid_indices flags) = Some c ->
  (0 <= c <= 20)%Z.
Proof.
  intros responses flags c t Ht Hc.
  assert (Hlen : (length (valid_indices flags) <= length responses)%nat).
  { destruct (valid_indices_from flags 0) as [ND _].
    rewrite <- (length_seq (length responses) 0).
    apply NoDup_incl_length; [exact ND |].
    intros i Hi. apply in_seq. split; [lia |]. simpl.
    unfold time_score in Ht.
    destruct (mapM _ (valid_indices flags)) as [times |] eqn:M;
      [| discriminate Ht].
    pose proof (mapM_some_all _ _ _ _ _ i M Hi) as N. cbn beta in N.
    apply nth_error_Some. intros E. apply N. rewrite E. reflexivity. }
  unfold consensus_score, py_truediv in Hc.
  destruct (length responses) as [| n] eqn:L; [discriminate Hc |].
  assert (P : Z.pos (Pos.of_nat (S n)) = Z.of_nat (S n)).
  { rewrite <- Pos.of_nat_succ, Zpos_P_of_succ_nat. lia. }
  remember (Pos.of_nat (S n)) as p eqn:Ep.
  cbn [py_int fmul] in Hc. injection Hc as <-.
  split.
  - apply Qtrunc_nonneg. apply Qmult_le_0_compat; [| discriminate].
    unfold Qle. simpl. lia.
  - apply Qtrunc_le; [lia |]. unfold Qle, Qmult. cbn [Qnum Qden inject_Z].
    rewrite Pos.mul_1_r, P. lia.
Qed.

(** X3.  Whenever a score is returned for some non-outlier, it is the plain sum
    of its four components: the similarity component is at most 60, the
    consensus component between 0 and 20, the time component between 0 and
    10 and the reputation bonus 10, so that the cap at 100 never cuts. *)
Theorem score_components_within_bounds :
  forall (responses : list WorkerResponse) (m : matrix) (flags : list bool)
         (s : Z),
    valid_indices flags <> [] ->
    calculate_consensus_score responses m flags = Some s ->
    exists similarity consensus time,
      semantic_score m (valid_indices flags) = Some similarity
      /\ consensus_score responses (valid_indices flags) = Some consensus
      /\ time_score responses (valid_indices flags) = Some time
      /\ s = (similarity + consensus + time + 10)%Z
      /\ (similarity <= 60)%Z
      /\ (0 <= consensus <= 20)%Z
      /\ (0 <= time <= 10)%Z.
Proof.
  intros responses m flags s Hne H. unfold calculate_consensus_score in H.
  destruct (valid_indices flags) as [| i valid] eqn:V; [congruence |].
  rewrite <- V in *.
  destruct (semantic_score m (valid_indices flags)) as [sim |] eqn:Es;
    [| discriminate H].
  destruct (consensus_score responses (valid_indices flags)) as [c |] eqn:Ec;
    [| discriminate H].
  destruct (time_score responses (valid_indices flags)) as [t |] eqn:Et;
    [| discriminate H].
  injection H as <-.
  pose proof (time_score_bounds _ _ _ Et) as Bt.
  pose proof (consensus_score_bounds _ _ _ _ Et Ec) as Bc.
  assert (Bs : (sim <= 60)%Z).
  { unfold semantic_score in Es.
    destruct (np_ix m _ _); [| discriminate Es].
    destruct (py_int _); [| discriminate Es].
    injection Es as <-. apply Z.le_min_l. }
  exists sim, c, t. unfold reputation_score.
  repeat split; try lia.
Qed.

Lemma score_components_within_bounds_two_camps :
  exists similarity consensus time,
    semantic_score two_camps (valid_indices [false; true; false; false])
    = Some similarity
    /\ consensus_score (repeat (a_response 120) 4)
         (valid_indices [false; true; false; false]) = Some consensus
    /\ time_score (repeat (a_response 120) 4)
         (valid_indices [false; true; false; false]) = Some time
    /\ 68%Z = (similarity + consensus + time + 10)%Z
    /\ (similarity <= 60)%Z
    /\ (0 <= consensus <= 20)%Z
    /\ (0 <= time <= 10)%Z.
Proof.
  assert (V : valid_indices [false; true; false; false] <> []) by discriminate.
  exact (score_components_within_bounds (repeat (a_response 120) 4) two_camps
           [false; true; false; false] 68%Z V eq_refl).
Defined.

End ScoreComponents.

Section OutliersLeftOut.

Lemma valid_times_keep : forall (responses : list WorkerResponse)
  (flags : list bool),
  length responses = length flags ->
  mapM (fun i => option_map inference_time_ms (nth_error responses i))
       (valid_indices flags)
  = Some (map inference_time_ms (keep flags responses)).
Proof.
  intros responses flags Hl.
  rewrite (mapM_ext _ _ _ (fun i => match nth_error responses i with
                                    | Some r => Some (inference_time_ms r)
                                    | None => None
                                    end))
    by (intros i _; destruct (nth_error responses i); reflexivity).
  rewrite gather_valid_indices by exact Hl.
  apply mapM_all_some. reflexivity.
Qed.

(** X6.  Outliers are left out of the score: on index-aligned inputs, two calls
    with the same flags return the same score (or both raise) as soon as the
    similarities among the non-outliers and the inference times of the
    non-outliers agree, whatever the flagged responses' similarities and
    times are, and whatever the workers, texts and hashes are. *)
Theorem score_ignores_outliers :
  forall (n : nat) (rs rs' : list WorkerResponse) (m m' : matrix)
         (flags : list bool),
    square n m -> square n m' -> length flags = n ->
    length rs = n -> length rs' = n ->
    restricted flags m = restricted flags m' ->
    map inference_time_ms (keep flags rs)
    = map inference_time_ms (keep flags rs') ->
    calculate_consensus_score rs m flags
    = calculate_consensus_score rs' m' flags.
Proof.
  intros n rs rs' m m' flags Hm Hm' Hf Hr Hr' Em Et.
  unfold calculate_consensus_score.
  destruct (valid_indices flags) as [| i valid] eqn:V; [reflexivity |].
  rewrite <- V.
  assert (Es : semantic_score m (valid_indices flags)
               = semantic_score m' (valid_indices flags)).
  { unfold semantic_score.
    rewrite (np_ix_valid n m flags Hm Hf), (np_ix_valid n m' flags Hm' Hf), Em.
    reflexivity. }
  assert (Ec : consensus_score rs (valid_indices flags)
               = consensus_score rs' (valid_indices flags)).
  { unfold consensus_score. rewrite Hr, Hr'. reflexivity. }
  assert (Ett : time_score rs (valid_indices flags)
                = time_score rs' (valid_indices flags)).
  { unfold time_score.
    rewrite (valid_times_keep rs flags) by congruence.
    rewrite (valid_times_keep rs' flags) by congruence.
    rewrite Et. reflexivity. }
  rewrite Es, Ec, Ett. reflexivity.
Qed.

Lemma score_ignores_outliers_two_camps :
  calculate_consensus_score
    [a_response 120; a_response 9000; a_response 120; a_response 120]
    (mk [[   1;   -1; 1#2; 1#2];
         [  -1;    1;  -1;  -1];
         [ 1#2;   -1;   1;   0];
         [ 1#2;   -1;   0;   1]]%Q)
    [false; true; false; false]
  = calculate_consensus_score (repeat (a_response 120) 4) two_camps
      [false; true; false; false].
Proof.
  assert (S1 : square 4 (mk [[   1;   -1; 1#2; 1#2];
                             [  -1;    1;  -1;  -1];
                             [ 1#2;   -1;   1;   0];
                             [ 1#2;   -1;   0;   1]]%Q)).
  { split; [reflexivity | repeat constructor]. }
  assert (S2 : square 4 two_camps).
  { split; [reflexivity | repeat constructor]. }
  exact (score_ignores_outliers 4
           [a_response 120; a_response 9000; a_response 120; a_response 120]
           (repeat (a_response 120) 4) _ _ [false; true; false; false]
           S1 S2 eq_refl eq_refl eq_refl eq_refl eq_refl).
Defined.

End OutliersLeftOut.
